(** * CdkProjectStack: the declared infrastructure and its configuration contract

    A shallow embedding of [cdk_project/cdk_project_stack.py].  The Python
    file is one constructor, [CdkProjectStack.__init__], which registers
    resources under the stack scope one after the other and mutates one of
    them (a security group) after other resources already refer to it.  The
    embedding is a state-and-error monad over the construct tree of the
    stack; Python object references become construct ids into that tree, so
    a late [add_ingress_rule] is seen by every holder of the reference.

    The constructors of the framework ([ec2.Vpc], [rds.DatabaseInstance],
    ...) are not part of the repository.  They are modelled here by what
    they record from their arguments, plus the few framework defaults the
    properties below talk about; each such default is marked in its
    comment. *)

From Stdlib Require Import String Ascii List Bool Arith ZArith Lia.
Import ListNotations.
Open Scope string_scope.

Set Implicit Arguments.
Set Warnings "-register-all".
Set Warnings "-abstract-large-number".

(** ** Deployment environment

    Attribute values such as [rds_instance.instance_identifier] are tokens
    while the constructor runs and are filled in at deployment.  The
    environment gives the value every token resolves to, and the
    availability zones the target region offers to the stack. *)

Record Environment := {
  partition : string;
  region : string;
  account : string;
  availability_zones : list string;
  (** the physical name behind [Ref] of a construct id *)
  ref_of : string -> string;
  (** [Fn::GetAtt] of a construct id and an attribute name *)
  get_att : string -> string -> string
}.

(** ** Resources (module [aws_ec2]) *)

Inductive SubnetType := PUBLIC | PRIVATE_WITH_EGRESS | PRIVATE_ISOLATED.

Record Subnet := {
  subnet_type : SubnetType;
  subnet_availability_zone : string
}.

Record Vpc := {
  vpc_max_azs : nat;
  vpc_availability_zones : list string;
  vpc_subnets : list Subnet;
  vpc_cidr_block : string
}.

Inductive Protocol := TCP | UDP | ICMP | ALL_TRAFFIC.

Record Port := {
  port_protocol : Protocol;
  from_port : Z;
  to_port : Z
}.

(** [ec2.Port.tcp(port)] *)
Definition Port_tcp (port : Z) : Port :=
  {| port_protocol := TCP; from_port := port; to_port := port |}.

(** A peer is a CIDR range or another security group, held by reference
    (its construct id). *)
Inductive Peer :=
| CidrIPv4 (cidr : string)
| CidrIPv6 (cidr : string)
| SecurityGroupPeer (group : string).

(** [ec2.Peer.any_ipv4()] *)
Definition Peer_any_ipv4 : Peer := CidrIPv4 "0.0.0.0/0".

(** [ec2.Peer.ipv4(cidr)] *)
Definition Peer_ipv4 (cidr : string) : Peer := CidrIPv4 cidr.

Record IngressRule := {
  rule_peer : Peer;
  rule_port : Port;
  rule_description : string
}.

Record SecurityGroup := {
  sg_vpc : string;
  sg_description : string;
  allow_all_outbound : bool;
  ingress_rules : list IngressRule
}.

Inductive InstanceClass := T2 | T3 | T3A | T4G | M5 | R5.
Inductive InstanceSize :=
  NANO | MICRO | SMALL | MEDIUM | LARGE | XLARGE | XLARGE2.

Definition InstanceClass_name (c : InstanceClass) : string :=
  match c with
  | T2 => "t2" | T3 => "t3" | T3A => "t3a" | T4G => "t4g"
  | M5 => "m5" | R5 => "r5"
  end.

Definition InstanceSize_name (s : InstanceSize) : string :=
  match s with
  | NANO => "nano" | MICRO => "micro" | SMALL => "small"
  | MEDIUM => "medium" | LARGE => "large" | XLARGE => "xlarge"
  | XLARGE2 => "2xlarge"
  end.

(** [ec2.InstanceType(identifier)] *)
Record InstanceType := { instance_type_identifier : string }.

(** [ec2.InstanceType.of(instance_class, instance_size)] *)
Definition InstanceType_of (c : InstanceClass) (s : InstanceSize)
  : InstanceType :=
  {| instance_type_identifier :=
       InstanceClass_name c ++ "." ++ InstanceSize_name s |}.

Inductive MachineImage := latest_amazon_linux2 | latest_amazon_linux2023.

Record Instance := {
  instance_type : InstanceType;
  machine_image : MachineImage;
  instance_vpc : string;
  instance_security_group : string;
  instance_private_ip : string
}.

(** ** Resources (module [aws_rds]) *)

Record MysqlEngineVersion := {
  mysql_full_version : string;
  mysql_major_version : string
}.

Definition VER_8_0_43 : MysqlEngineVersion :=
  {| mysql_full_version := "8.0.43"; mysql_major_version := "8.0" |}.

Inductive DatabaseInstanceEngine :=
| mysql (version : MysqlEngineVersion)
| postgres (version : string)
| mariadb (version : string).

Inductive StorageType := STANDARD | GP2 | GP3 | IO1 | IO2.

Inductive RemovalPolicy := DESTROY | RETAIN | SNAPSHOT.

Record DatabaseInstance := {
  engine : DatabaseInstanceEngine;
  db_instance_type : InstanceType;
  db_vpc : string;
  security_groups : list string;
  multi_az : bool;
  allocated_storage : Z;
  storage_type : StorageType;
  deletion_protection : bool;
  removal_policy : RemovalPolicy;
  instance_identifier : string;
  instance_arn : string;
  db_instance_endpoint_address : string
}.

(** ** Resources (module [aws_iam]) *)

Inductive Principal :=
| ServicePrincipal (service : string)
| AccountPrincipal (account_id : string)
| AnyPrincipal.

Record PolicyStatement := {
  actions : list string;
  resources : list string
}.

Record Role := {
  (** the principals of the trust policy; the constructor puts
      [assumed_by] there and nothing else *)
  assume_role_principals : list Principal;
  (** the statements of the role's inline default policy *)
  policy_statements : list PolicyStatement;
  role_arn : string
}.

(** ** Resources (module [aws_scheduler]) *)

Record FlexibleTimeWindowProperty := { mode : string }.

Record TargetProperty := {
  arn : string;
  target_role_arn : string;
  input : string
}.

Record CfnSchedule := {
  flexible_time_window : FlexibleTimeWindowProperty;
  schedule_expression : string;
  target : TargetProperty;
  description : string
}.

(** ** The construct tree *)

Inductive Construct :=
| CVpc (v : Vpc)
| CSecurityGroup (g : SecurityGroup)
| CInstance (i : Instance)
| CDatabaseInstance (d : DatabaseInstance)
| CRole (r : Role)
| CSchedule (c : CfnSchedule)
| COutput (value : string).

Record Tag := { tag_target : string; tag_key : string; tag_value : string }.

(** The stack under construction: its id, the environment it is
    synthesized for, its children in creation order, and the tags. *)
Record Stack := {
  stack_id : string;
  stack_env : Environment;
  children : list (string * Construct);
  tags : list Tag
}.

Fixpoint try_find_child (id : string) (cs : list (string * Construct))
  : option Construct :=
  match cs with
  | [] => None
  | (k, c) :: rest =>
      if String.eqb k id then Some c else try_find_child id rest
  end.

Fixpoint replace_child (id : string) (c : Construct)
  (cs : list (string * Construct)) : list (string * Construct) :=
  match cs with
  | [] => []
  | (k, old) :: rest =>
      if String.eqb k id then (k, c) :: rest
      else (k, old) :: replace_child id c rest
  end.

(** ** The construction monad: state over [Stack], with errors *)

Inductive Result (A : Type) :=
| Ok (a : A)
| Error (message : string).
Arguments Error {A} message.

Definition Build (A : Type) : Type := Stack -> Result (A * Stack).

Definition ret {A} (a : A) : Build A := fun st => Ok (a, st).

Definition bind {A B} (m : Build A) (k : A -> Build B) : Build B :=
  fun st =>
    match m st with
    | Ok (a, st') => k a st'
    | Error e => Error e
    end.

Definition raise {A} (message : string) : Build A :=
  fun _ => Error message.

Definition environment : Build Environment :=
  fun st => Ok (stack_env st, st).

Declare Scope build_scope.
Delimit Scope build_scope with build.
Notation "x <- m ;; k" := (bind m (fun x => k))
  (at level 61, m at next level, right associativity) : build_scope.
Notation "m ;; k" := (bind m (fun _ => k))
  (at level 61, right associativity) : build_scope.
Open Scope build_scope.

(** Registering a child under the stack scope.  Two children of one scope
    cannot share an id: the framework raises. *)
Definition add_child (id : string) (c : Construct) : Build string :=
  fun st =>
    match try_find_child id (children st) with
    | Some _ => Error ("There is already a Construct with name " ++ id)
    | None =>
        Ok (id, {| stack_id := stack_id st;
                   stack_env := stack_env st;
                   children := children st ++ [(id, c)];
                   tags := tags st |})
    end.

Definition set_child (id : string) (c : Construct) : Build unit :=
  fun st =>
    Ok (tt, {| stack_id := stack_id st;
               stack_env := stack_env st;
               children := replace_child id c (children st);
               tags := tags st |}).

Definition find_child (id : string) : Build Construct :=
  fun st =>
    match try_find_child id (children st) with
    | Some c => Ok (c, st)
    | None => Error ("No child with id " ++ id)
    end.

(** ** The framework's constructors, as far as the stack uses them *)

(** Framework default: a [Vpc] created without [subnet_configuration] gets
    one public and one private (with egress) subnet group, each with one
    subnet per availability zone of the network. *)
Definition default_subnet_configuration : list SubnetType :=
  [PUBLIC; PRIVATE_WITH_EGRESS].

Definition subnets_for (azs : list string) (tiers : list SubnetType)
  : list Subnet :=
  flat_map
    (fun t =>
       map (fun az => {| subnet_type := t; subnet_availability_zone := az |})
         azs)
    tiers.

(** [ec2.Vpc(self, id, max_azs=n)].  [max_azs] caps the zones taken from
    the ones the environment offers: the network uses the first [n]. *)
Definition ec2_Vpc (id : string) (max_azs : nat) : Build string :=
  env <- environment ;;
  let azs := firstn max_azs (availability_zones env) in
  add_child id
    (CVpc {| vpc_max_azs := max_azs;
             vpc_availability_zones := azs;
             vpc_subnets := subnets_for azs default_subnet_configuration;
             vpc_cidr_block := get_att env id "CidrBlock" |}).

(** [ec2.SecurityGroup(self, id, vpc=, description=, allow_all_outbound=)]:
    a fresh group has no ingress rule. *)
Definition ec2_SecurityGroup (id : string) (vpc : string)
  (description : string) (allow_all_outbound : bool) : Build string :=
  add_child id
    (CSecurityGroup {| sg_vpc := vpc;
                       sg_description := description;
                       allow_all_outbound := allow_all_outbound;
                       ingress_rules := [] |}).

(** [group.add_ingress_rule(peer, connection, description)]: the rule is
    appended to the group the reference points to. *)
Definition add_ingress_rule (group : string) (peer : Peer)
  (connection : Port) (description : string) : Build unit :=
  c <- find_child group ;;
  match c with
  | CSecurityGroup g =>
      set_child group
        (CSecurityGroup
           {| sg_vpc := sg_vpc g;
              sg_description := sg_description g;
              allow_all_outbound := g.(allow_all_outbound);
              ingress_rules :=
                ingress_rules g
                ++ [{| rule_peer := peer;
                       rule_port := connection;
                       rule_description := description |}] |})
  | _ => raise (group ++ " is not a security group")
  end.

(** [ec2.Instance(self, id, instance_type=, machine_image=, vpc=,
    security_group=)] *)
Definition ec2_Instance (id : string) (instance_type : InstanceType)
  (machine_image : MachineImage) (vpc : string) (security_group : string)
  : Build string :=
  env <- environment ;;
  add_child id
    (CInstance {| instance_type := instance_type;
                  machine_image := machine_image;
                  instance_vpc := vpc;
                  instance_security_group := security_group;
                  instance_private_ip := get_att env id "PrivateIp" |}).

(** [Stack.format_arn] with the colon-separated resource name the
    database construct uses for its ARN. *)
Definition format_arn (env : Environment) (service resource name : string)
  : string :=
  "arn:" ++ partition env ++ ":" ++ service ++ ":" ++ region env ++ ":"
  ++ account env ++ ":" ++ resource ++ ":" ++ name.

(** [rds.DatabaseInstance(self, id, engine=, ...)].  The identifier is the
    [Ref] of the resource; the ARN is formatted from it. *)
Definition rds_DatabaseInstance (id : string)
  (engine : DatabaseInstanceEngine) (instance_type : InstanceType)
  (vpc : string) (security_groups : list string) (multi_az : bool)
  (allocated_storage : Z) (storage_type : StorageType)
  (deletion_protection : bool) (removal_policy : RemovalPolicy)
  : Build string :=
  env <- environment ;;
  add_child id
    (CDatabaseInstance
       {| engine := engine;
          db_instance_type := instance_type;
          db_vpc := vpc;
          security_groups := security_groups;
          multi_az := multi_az;
          allocated_storage := allocated_storage;
          storage_type := storage_type;
          deletion_protection := deletion_protection;
          removal_policy := removal_policy;
          instance_identifier := ref_of env id;
          instance_arn := format_arn env "rds" "db" (ref_of env id);
          db_instance_endpoint_address := get_att env id "Endpoint.Address" |}).

(** Reading the attributes of a database through its reference. *)
Definition get_database (id : string) : Build DatabaseInstance :=
  c <- find_child id ;;
  match c with
  | CDatabaseInstance d => ret d
  | _ => raise (id ++ " is not a database instance")
  end.

Definition get_instance (id : string) : Build Instance :=
  c <- find_child id ;;
  match c with
  | CInstance i => ret i
  | _ => raise (id ++ " is not an instance")
  end.

Definition get_role (id : string) : Build Role :=
  c <- find_child id ;;
  match c with
  | CRole r => ret r
  | _ => raise (id ++ " is not a role")
  end.

(** [iam.Role(self, id, assumed_by=)] *)
Definition iam_Role (id : string) (assumed_by : Principal) : Build string :=
  env <- environment ;;
  add_child id
    (CRole {| assume_role_principals := [assumed_by];
              policy_statements := [];
              role_arn := get_att env id "Arn" |}).

(** [role.add_to_policy(statement)] *)
Definition add_to_policy (id : string) (statement : PolicyStatement)
  : Build unit :=
  r <- get_role id ;;
  set_child id
    (CRole {| assume_role_principals := assume_role_principals r;
              policy_statements := policy_statements r ++ [statement];
              role_arn := role_arn r |}).

(** [scheduler.CfnSchedule(self, id, flexible_time_window=,
    schedule_expression=, target=, description=)] *)
Definition scheduler_CfnSchedule (id : string)
  (flexible_time_window : FlexibleTimeWindowProperty)
  (schedule_expression : string) (target : TargetProperty)
  (description : string) : Build string :=
  add_child id
    (CSchedule {| flexible_time_window := flexible_time_window;
                  schedule_expression := schedule_expression;
                  target := target;
                  description := description |}).

(** [Tags.of(construct).add(key, value)] *)
Definition Tags_add (construct key value : string) : Build unit :=
  fun st =>
    Ok (tt, {| stack_id := stack_id st;
               stack_env := stack_env st;
               children := children st;
               tags := tags st
                       ++ [{| tag_target := construct;
                              tag_key := key;
                              tag_value := value |}] |}).

(** [CfnOutput(self, id, value=)] *)
Definition CfnOutput (id : string) (value : string) : Build string :=
  add_child id (COutput value).

(** ** [cdk_project_stack.py] *)

(** The double quote, written by its code: it delimits the key and the
    value inside the f-strings of lines 103 and 116. *)
Definition dquote : string := String "034"%char EmptyString.

(** [f'{{"DbInstanceIdentifier": "{identifier}"}}'], the expression of
    lines 103 and 116: [{{] and [}}] are literal braces, [{identifier}] is
    replaced by the string itself, unescaped. *)
Definition input_fstring (identifier : string) : string :=
  "{" ++ dquote ++ "DbInstanceIdentifier" ++ dquote ++ ": "
  ++ dquote ++ identifier ++ dquote ++ "}".

(** Lines 95 to 128, everything after the binding of [target_payload];
    the variables bound so far are its arguments. *)
Definition init_after_target_payload
  (vpc sg instance rds_sg rds_instance scheduler_role : string)
  (target_payload : list (string * string)) : Build unit :=
  (* C. Schedule: Stop at 6:00 PM (18:00) every day *)
  r <- get_role scheduler_role ;;
  d <- get_database rds_instance ;;
  stop_schedule <-
    scheduler_CfnSchedule "StopRdsSchedule"
      {| mode := "OFF" |}
      "cron(30 6 * * ? *)"
      {| arn := "arn:aws:scheduler:::aws-sdk:rds:stopDBInstance";
         target_role_arn := role_arn r;
         input := input_fstring (instance_identifier d) |}
      "Stops RDS instance at 6 PM UTC" ;;
  (* D. Schedule: Start at 8:00 AM every Mon-Fri *)
  r <- get_role scheduler_role ;;
  d <- get_database rds_instance ;;
  start_schedule <-
    scheduler_CfnSchedule "StartRdsSchedule"
      {| mode := "OFF" |}
      "cron(30 22 ? * MON-FRI *)"
      {| arn := "arn:aws:scheduler:::aws-sdk:rds:startDBInstance";
         target_role_arn := role_arn r;
         input := input_fstring (instance_identifier d) |}
      "Starts RDS instance at 8 AM UTC (Mon-Fri)" ;;
  Tags_add instance "Name" "cdk-ec2-instance" ;;
  Tags_add rds_instance "Name" "cdk-rds-instance" ;;
  (* Allow the EC2 instance to connect to the RDS instance on the default
     port *)
  add_ingress_rule rds_sg (SecurityGroupPeer sg) (Port_tcp 3306%Z)
    "Allow MySQL access from EC2 instance" ;;
  d <- get_database rds_instance ;;
  CfnOutput "DBEndpoint" (db_instance_endpoint_address d) ;;
  i <- get_instance instance ;;
  CfnOutput "EC2InstancePrivateIP" (instance_private_ip i) ;;
  ret tt.

(** [CdkProjectStack.__init__], lines 16 to 128.  [self] is the state of
    the monad. *)
Definition __init__ : Build unit :=
  vpc <- ec2_Vpc "Vpc" 2 ;;
  sg <- ec2_SecurityGroup "InstanceSecurityGroup" vpc
          "Allow SSH access" true ;;
  add_ingress_rule sg Peer_any_ipv4 (Port_tcp 22%Z) "allow SSH" ;;
  instance <-
    ec2_Instance "Ec2Instance" {| instance_type_identifier := "t3.micro" |}
      latest_amazon_linux2 vpc sg ;;
  rds_sg <- ec2_SecurityGroup "RdsSecurityGroup" vpc
              "Allow database access" true ;;
  rds_instance <-
    rds_DatabaseInstance "RdsInstance"
      (mysql VER_8_0_43)
      (InstanceType_of T3 MICRO)
      vpc [rds_sg] false 20%Z GP2 false DESTROY ;;
  scheduler_role <-
    iam_Role "SchedulerRole" (ServicePrincipal "scheduler.amazonaws.com") ;;
  d <- get_database rds_instance ;;
  add_to_policy scheduler_role
    {| actions := ["rds:StartDBInstance"; "rds:StopDBInstance"];
       resources := [instance_arn d] |} ;;
  d <- get_database rds_instance ;;
  let target_payload :=
    [("DbInstanceIdentifier", instance_identifier d)] in
  init_after_target_payload vpc sg instance rds_sg rds_instance
    scheduler_role target_payload.

(** The rule of lines 49 to 53, which the source keeps in a comment and so
    never adds. *)
Definition commented_out_rule (v : Vpc) : IngressRule :=
  {| rule_peer := Peer_ipv4 (vpc_cidr_block v);
     rule_port := Port_tcp 5432%Z;
     rule_description := "Allow connection from within VPC" |}.

(** [CdkProjectStack(scope, construct_id)] synthesized for an environment:
    the tree [__init__] leaves behind, if it raises nothing. *)
Definition CdkProjectStack (env : Environment) (construct_id : string)
  : option Stack :=
  match __init__ {| stack_id := construct_id;
                    stack_env := env;
                    children := [];
                    tags := [] |} with
  | Ok (_, st) => Some st
  | Error _ => None
  end.

(** ** JSON texts (RFC 8259), as the scheduler reads a target input

    A Python [str] is kept as its UTF-8 bytes, so the grammar is read at
    the byte level: bytes from 128 up belong to non-ASCII characters and
    pass through a string unchanged. *)

Inductive json :=
| JNull
| JBool (b : bool)
| JNumber (lexeme : string)
| JString (s : string)
| JArray (items : list json)
| JObject (members : list (string * json)).

Definition is_ws (c : ascii) : bool :=
  (c =? " ")%char || (c =? "009")%char || (c =? "010")%char
  || (c =? "013")%char.

(** Control characters, U+0000 to U+001F, may not appear raw in a string. *)
Definition is_control (c : ascii) : bool := (N_of_ascii c <? 32)%N.

Definition is_digit (c : ascii) : bool :=
  ((48 <=? N_of_ascii c) && (N_of_ascii c <=? 57))%N.

Fixpoint skip_ws (s : string) : string :=
  match s with
  | String c rest => if is_ws c then skip_ws rest else s
  | EmptyString => s
  end.

Definition hex_digit (c : ascii) : option N :=
  let n := N_of_ascii c in
  (if (48 <=? n) && (n <=? 57) then Some (n - 48)
   else if (65 <=? n) && (n <=? 70) then Some (n - 55)
   else if (97 <=? n) && (n <=? 102) then Some (n - 87)
   else None)%N.

Definition hex4 (a b c d : ascii) : option N :=
  match hex_digit a, hex_digit b, hex_digit c, hex_digit d with
  | Some x, Some y, Some z, Some w => Some (((x * 16 + y) * 16 + z) * 16 + w)%N
  | _, _, _, _ => None
  end.

(** The UTF-8 bytes of one 16-bit code unit (a surrogate half is encoded
    on its own). *)
Definition utf8_of_unit (u : N) : string :=
  (if u <? 128 then String (ascii_of_N u) ""
   else if u <? 2048 then
     String (ascii_of_N (192 + u / 64))
       (String (ascii_of_N (128 + u mod 64)) "")
   else
     String (ascii_of_N (224 + u / 4096))
       (String (ascii_of_N (128 + (u / 64) mod 64))
          (String (ascii_of_N (128 + u mod 64)) "")))%N.

Definition escaped (e : ascii) : option ascii :=
  if (e =? "034")%char then Some "034"%char
  else if (e =? "\")%char then Some "\"%char
  else if (e =? "/")%char then Some "/"%char
  else if (e =? "b")%char then Some "008"%char
  else if (e =? "f")%char then Some "012"%char
  else if (e =? "n")%char then Some "010"%char
  else if (e =? "r")%char then Some "013"%char
  else if (e =? "t")%char then Some "009"%char
  else None.

Definition prepend (p : string) (r : option (string * string))
  : option (string * string) :=
  match r with
  | Some (body, rest) => Some (p ++ body, rest)
  | None => None
  end.

(** The characters of a string up to its closing quote, decoded; the
    opening quote is already consumed.  Returns the rest of the text. *)
Fixpoint json_chars (s : string) : option (string * string) :=
  match s with
  | EmptyString => None
  | String c rest =>
      if (c =? "034")%char then Some ("", rest)
      else if (c =? "\")%char then
        match rest with
        | String e rest1 =>
            if (e =? "u")%char then
              match rest1 with
              | String h1 (String h2 (String h3 (String h4 rest2))) =>
                  match hex4 h1 h2 h3 h4 with
                  | Some u => prepend (utf8_of_unit u) (json_chars rest2)
                  | None => None
                  end
              | _ => None
              end
            else
              match escaped e with
              | Some d => prepend (String d "") (json_chars rest1)
              | None => None
              end
        | EmptyString => None
        end
      else if is_control c then None
      else prepend (String c "") (json_chars rest)
  end.

Fixpoint take_digits (s : string) : string * string :=
  match s with
  | String c rest =>
      if is_digit c then
        let (ds, r) := take_digits rest in (String c ds, r)
      else ("", s)
  | EmptyString => ("", s)
  end.

(** number = [ minus ] int [ frac ] [ exp ] *)
Definition json_number (s : string) : option (string * string) :=
  let (sign, s1) :=
    match s with
    | String "-" r => ("-", r)
    | _ => ("", s)
    end in
  let int_part :=
    match s1 with
    | String "0" r => Some ("0", r)
    | _ => match take_digits s1 with
           | (EmptyString, _) => None
           | (ds, r) => Some (ds, r)
           end
    end in
  match int_part with
  | None => None
  | Some (int, s2) =>
      let frac_part :=
        match s2 with
        | String "." r =>
            match take_digits r with
            | (EmptyString, _) => None
            | (ds, r') => Some ("." ++ ds, r')
            end
        | _ => Some ("", s2)
        end in
      match frac_part with
      | None => None
      | Some (frac, s3) =>
          let exp_part :=
            match s3 with
            | String e r =>
                if (e =? "e")%char || (e =? "E")%char then
                  let (esign, r1) :=
                    match r with
                    | String "+" r' => ("+", r')
                    | String "-" r' => ("-", r')
                    | _ => ("", r)
                    end in
                  match take_digits r1 with
                  | (EmptyString, _) => None
                  | (ds, r2) => Some (String e esign ++ ds, r2)
                  end
                else Some ("", s3)
            | EmptyString => Some ("", s3)
            end in
          match exp_part with
          | None => None
          | Some (exp, s4) => Some (sign ++ int ++ frac ++ exp, s4)
          end
      end
  end.

Fixpoint strip_prefix (p s : string) : option string :=
  match p, s with
  | EmptyString, _ => Some s
  | String a p', String b s' =>
      if (a =? b)%char then strip_prefix p' s' else None
  | String _ _, EmptyString => None
  end.

(** value, members of an object, elements of an array.  [fuel] bounds the
    nesting; every call consumes at least one character. *)
Fixpoint json_value (fuel : nat) (s : string) : option (json * string) :=
  match fuel with
  | O => None
  | S fuel' =>
      match skip_ws s with
      | EmptyString => None
      | String c rest =>
          if (c =? "{")%char then
            match skip_ws rest with
            | String "}" rest' => Some (JObject [], rest')
            | _ =>
                match json_members fuel' rest with
                | Some (ms, r) => Some (JObject ms, r)
                | None => None
                end
            end
          else if (c =? "[")%char then
            match skip_ws rest with
            | String "]" rest' => Some (JArray [], rest')
            | _ =>
                match json_elements fuel' rest with
                | Some (vs, r) => Some (JArray vs, r)
                | None => None
                end
            end
          else if (c =? "034")%char then
            match json_chars rest with
            | Some (str, r) => Some (JString str, r)
            | None => None
            end
          else
            match strip_prefix "true" (String c rest),
                  strip_prefix "false" (String c rest),
                  strip_prefix "null" (String c rest) with
            | Some r, _, _ => Some (JBool true, r)
            | _, Some r, _ => Some (JBool false, r)
            | _, _, Some r => Some (JNull, r)
            | None, None, None =>
                match json_number (String c rest) with
                | Some (lexeme, r) => Some (JNumber lexeme, r)
                | None => None
                end
            end
      end
  end
with json_members (fuel : nat) (s : string)
  : option (list (string * json) * string) :=
  match fuel with
  | O => None
  | S fuel' =>
      match skip_ws s with
      | String "034" rest =>
          match json_chars rest with
          | None => None
          | Some (key, r1) =>
              match skip_ws r1 with
              | String ":" r2 =>
                  match json_value fuel' r2 with
                  | None => None
                  | Some (v, r3) =>
                      match skip_ws r3 with
                      | String "," r4 =>
                          match json_members fuel' r4 with
                          | Some (ms, r5) => Some ((key, v) :: ms, r5)
                          | None => None
                          end
                      | String "}" r4 => Some ([(key, v)], r4)
                      | _ => None
                      end
                  end
              | _ => None
              end
          end
      | _ => None
      end
  end
with json_elements (fuel : nat) (s : string)
  : option (list json * string) :=
  match fuel with
  | O => None
  | S fuel' =>
      match json_value fuel' s with
      | None => None
      | Some (v, r1) =>
          match skip_ws r1 with
          | String "," r2 =>
              match json_elements fuel' r2 with
              | Some (vs, r3) => Some (v :: vs, r3)
              | None => None
              end
          | String "]" r2 => Some ([v], r2)
          | _ => None
          end
      end
  end.

(** A whole text: one value, then only whitespace. *)
Definition json_loads (s : string) : option json :=
  match json_value (2 * String.length s + 2) s with
  | Some (v, rest) =>
      match skip_ws rest with
      | EmptyString => Some v
      | String _ _ => None
      end
  | None => None
  end.

(** Characters an f-string can carry into a JSON string untouched. *)
Definition json_plain_char (c : ascii) : bool :=
  negb (c =? "034")%char && negb (c =? "\")%char && negb (is_control c).

Fixpoint string_forall (p : ascii -> bool) (s : string) : bool :=
  match s with
  | EmptyString => true
  | String c rest => p c && string_forall p rest
  end.

Definition no_quote_no_backslash (s : string) : bool :=
  string_forall (fun c => negb (c =? "034")%char && negb (c =? "\")%char) s.

Definition no_control_character (s : string) : bool :=
  string_forall (fun c => negb (is_control c)) s.

Definition json_plain (s : string) : bool := string_forall json_plain_char s.

(** ** Schedule expressions, as the scheduling service reads them

    [cron(minutes hours day-of-month month day-of-week year)], evaluated in
    UTC.  The model covers values, names, [*], [?], lists, ranges and
    increments; the special characters [L], [W] and [#] are not covered
    and make the expression unreadable here. *)

Local Open Scope nat_scope.

Inductive Weekday := SUN | MON | TUE | WED | THU | FRI | SAT.

(** Days of the week are numbered from Sunday = 1. *)
Definition weekday_number (d : Weekday) : nat :=
  match d with
  | SUN => 1 | MON => 2 | TUE => 3 | WED => 4 | THU => 5 | FRI => 6
  | SAT => 7
  end.

Inductive CronItem :=
| CronAll                         (* [*] *)
| CronAny                         (* [?] *)
| CronValue (v : nat)
| CronRange (first last : nat)    (* [first-last] *)
| CronStep (start step : nat).    (* [start/step] *)

Definition CronField := list CronItem.

Record CronExpression := {
  cron_minutes : CronField;
  cron_hours : CronField;
  cron_day_of_month : CronField;
  cron_month : CronField;
  cron_day_of_week : CronField;
  cron_year : CronField
}.

Fixpoint split_on (sep : ascii) (s : string) : list string :=
  match s with
  | EmptyString => [EmptyString]
  | String c rest =>
      if (c =? sep)%char then EmptyString :: split_on sep rest
      else
        match split_on sep rest with
        | w :: ws => String c w :: ws
        | [] => [String c EmptyString]
        end
  end.

Fixpoint decimal (acc : nat) (s : string) : option nat :=
  match s with
  | EmptyString => Some acc
  | String c rest =>
      if is_digit c then decimal (10 * acc + (nat_of_ascii c - 48)) rest
      else None
  end.

Definition cron_number (s : string) : option nat :=
  match s with
  | EmptyString => None
  | _ => decimal 0 s
  end.

Fixpoint index_of (s : string) (names : list string) (n : nat)
  : option nat :=
  match names with
  | [] => None
  | x :: rest => if String.eqb x s then Some n else index_of s rest (S n)
  end.

(** What a field accepts: its bounds, its names (the first name stands for
    the lower bound), and whether [?] is allowed. *)
Record FieldKind := {
  kind_low : nat;
  kind_high : nat;
  kind_names : list string;
  kind_any : bool
}.

Definition minutes_kind :=
  {| kind_low := 0; kind_high := 59; kind_names := []; kind_any := false |}.
Definition hours_kind :=
  {| kind_low := 0; kind_high := 23; kind_names := []; kind_any := false |}.
Definition day_of_month_kind :=
  {| kind_low := 1; kind_high := 31; kind_names := []; kind_any := true |}.
Definition month_kind :=
  {| kind_low := 1; kind_high := 12;
     kind_names := ["JAN"; "FEB"; "MAR"; "APR"; "MAY"; "JUN";
                    "JUL"; "AUG"; "SEP"; "OCT"; "NOV"; "DEC"];
     kind_any := false |}.
Definition day_of_week_kind :=
  {| kind_low := 1; kind_high := 7;
     kind_names := ["SUN"; "MON"; "TUE"; "WED"; "THU"; "FRI"; "SAT"];
     kind_any := true |}.
Definition year_kind :=
  {| kind_low := 1970; kind_high := 2199; kind_names := [];
     kind_any := false |}.

Definition cron_value (k : FieldKind) (s : string) : option nat :=
  let v :=
    match index_of s (kind_names k) (kind_low k) with
    | Some n => Some n
    | None => cron_number s
    end in
  match v with
  | Some n =>
      if (kind_low k <=? n) && (n <=? kind_high k) then Some n else None
  | None => None
  end.

Definition cron_item (k : FieldKind) (s : string) : option CronItem :=
  if String.eqb s "*" then Some CronAll
  else if String.eqb s "?" then
    if kind_any k then Some CronAny else None
  else
    match split_on "/" s with
    | [start; step] =>
        let first :=
          if String.eqb start "*" then Some (kind_low k)
          else cron_value k start in
        match first, cron_number step with
        | Some a, Some (S n) => Some (CronStep a (S n))
        | _, _ => None
        end
    | [_] =>
        match split_on "-" s with
        | [a; b] =>
            match cron_value k a, cron_value k b with
            | Some x, Some y =>
                if x <=? y then Some (CronRange x y) else None
            | _, _ => None
            end
        | [a] =>
            match cron_value k a with
            | Some x => Some (CronValue x)
            | None => None
            end
        | _ => None
        end
    | _ => None
    end.

Fixpoint cron_items (k : FieldKind) (l : list string)
  : option (list CronItem) :=
  match l with
  | [] => Some []
  | s :: rest =>
      match cron_item k s, cron_items k rest with
      | Some i, Some is_ => Some (i :: is_)
      | _, _ => None
      end
  end.

Definition cron_field (k : FieldKind) (s : string) : option CronField :=
  cron_items k (split_on "," s).

Definition is_any (f : CronField) : bool :=
  match f with
  | [CronAny] => true
  | _ => false
  end.

Fixpoint strip_suffix_char (c : ascii) (s : string) : option string :=
  match s with
  | EmptyString => None
  | String a EmptyString => if (a =? c)%char then Some EmptyString else None
  | String a rest =>
      match strip_suffix_char c rest with
      | Some r => Some (String a r)
      | None => None
      end
  end.

(** Reads [cron(...)].  Day-of-month and day-of-week cannot both be
    specified: exactly one of them is [?]. *)
Definition parse_cron (s : string) : option CronExpression :=
  match strip_prefix "cron(" s with
  | None => None
  | Some body =>
      match strip_suffix_char ")" body with
      | None => None
      | Some fields =>
          match split_on " " fields with
          | [mi; ho; dm; mo; dw; ye] =>
              match cron_field minutes_kind mi, cron_field hours_kind ho,
                    cron_field day_of_month_kind dm,
                    cron_field month_kind mo,
                    cron_field day_of_week_kind dw,
                    cron_field year_kind ye with
              | Some a, Some b, Some c, Some d, Some e, Some f =>
                  if xorb (is_any c) (is_any e) then
                    Some {| cron_minutes := a; cron_hours := b;
                            cron_day_of_month := c; cron_month := d;
                            cron_day_of_week := e; cron_year := f |}
                  else None
              | _, _, _, _, _, _ => None
              end
          | _ => None
          end
      end
  end.

Definition item_matches (i : CronItem) (v : nat) : bool :=
  match i with
  | CronAll => true
  | CronAny => true
  | CronValue n => v =? n
  | CronRange a b => (a <=? v) && (v <=? b)
  | CronStep a n => (a <=? v) && ((v - a) mod n =? 0)
  end.

Definition field_matches (f : CronField) (v : nat) : bool :=
  existsb (fun i => item_matches i v) f.

(** A calendar day (UTC), and a time of day in it. *)
Record Day := {
  year : nat;
  month : nat;
  day_of_month : nat;
  day_of_week : Weekday
}.

Definition day_matches (e : CronExpression) (d : Day) : bool :=
  field_matches (cron_day_of_month e) (day_of_month d)
  && field_matches (cron_month e) (month d)
  && field_matches (cron_day_of_week e) (weekday_number (day_of_week d))
  && field_matches (cron_year e) (year d).

Definition time_matches (e : CronExpression) (t : nat * nat) : bool :=
  field_matches (cron_hours e) (fst t)
  && field_matches (cron_minutes e) (snd t).

(** Does the schedule fire on day [d] at hour:minute [t]? *)
Definition fires (e : CronExpression) (d : Day) (t : nat * nat) : bool :=
  day_matches e d && time_matches e t.

(** The 1440 minutes of a day, as (hour, minute), in order. *)
Definition minutes_of_day : list (nat * nat) :=
  list_prod (seq 0 24) (seq 0 60).

(** The times at which the schedule fires on day [d]. *)
Definition fire_times (e : CronExpression) (d : Day) : list (nat * nat) :=
  filter (fires e d) minutes_of_day.

Definition is_weekend (d : Weekday) : bool :=
  match d with
  | SAT | SUN => true
  | _ => false
  end.

(** ** Times named in a description

    [clock_time s] is the first time of day written in [s] as a number
    followed by [AM] or [PM], as (hour, minute) on the 24-hour clock. *)

Definition to_24h (h : nat) (pm : bool) : nat :=
  if pm then (if h =? 12 then 12 else h + 12)
  else (if h =? 12 then 0 else h).

Definition clock_word (w next : string) : option (nat * nat) :=
  match cron_number w with
  | Some h =>
      if (1 <=? h) && (h <=? 12) then
        if String.eqb next "AM" then Some (to_24h h false, 0)
        else if String.eqb next "PM" then Some (to_24h h true, 0)
        else None
      else None
  | None => None
  end.

Fixpoint clock_time_words (ws : list string) : option (nat * nat) :=
  match ws with
  | w :: ((next :: _) as rest) =>
      match clock_word w next with
      | Some t => Some t
      | None => clock_time_words rest
      end
  | _ => None
  end.

Definition clock_time (s : string) : option (nat * nat) :=
  clock_time_words (split_on " " s).

(** ** Reading the synthesized stack *)

Local Open Scope string_scope.

Definition vpcs (st : Stack) : list Vpc :=
  flat_map (fun kc => match snd kc with CVpc v => [v] | _ => [] end)
    (children st).

Definition instances (st : Stack) : list Instance :=
  flat_map (fun kc => match snd kc with CInstance i => [i] | _ => [] end)
    (children st).

Definition databases (st : Stack) : list DatabaseInstance :=
  flat_map
    (fun kc => match snd kc with CDatabaseInstance d => [d] | _ => [] end)
    (children st).

Definition roles (st : Stack) : list Role :=
  flat_map (fun kc => match snd kc with CRole r => [r] | _ => [] end)
    (children st).

Definition schedules (st : Stack) : list (string * CfnSchedule) :=
  flat_map
    (fun kc => match snd kc with CSchedule c => [(fst kc, c)] | _ => [] end)
    (children st).

(** The security group a reference points to. *)
Definition security_group (st : Stack) (id : string)
  : option SecurityGroup :=
  match try_find_child id (children st) with
  | Some (CSecurityGroup g) => Some g
  | _ => None
  end.

Definition is_cidr_peer (p : Peer) : bool :=
  match p with
  | CidrIPv4 _ | CidrIPv6 _ => true
  | SecurityGroupPeer _ => false
  end.

Definition SubnetType_eqb (a b : SubnetType) : bool :=
  match a, b with
  | PUBLIC, PUBLIC => true
  | PRIVATE_WITH_EGRESS, PRIVATE_WITH_EGRESS => true
  | PRIVATE_ISOLATED, PRIVATE_ISOLATED => true
  | _, _ => false
  end.

(** The availability zones in which the network has a subnet of tier
    [t], one entry per subnet. *)
Definition tier_zones (t : SubnetType) (v : Vpc) : list string :=
  map subnet_availability_zone
    (filter (fun s => SubnetType_eqb (subnet_type s) t) (vpc_subnets v)).

(** The identifier a payload of the shape of lines 103 and 116 carries:
    what stands between the fixed opening and the fixed closing text. *)
Fixpoint strip_suffix (suffix s : string) : option string :=
  if String.eqb s suffix then Some EmptyString
  else
    match s with
    | EmptyString => None
    | String c rest =>
        match strip_suffix suffix rest with
        | Some r => Some (String c r)
        | None => None
        end
    end.

Definition payload_identifier (payload : string) : option string :=
  match strip_prefix
          ("{" ++ dquote ++ "DbInstanceIdentifier" ++ dquote ++ ": "
           ++ dquote) payload with
  | Some rest => strip_suffix (dquote ++ "}") rest
  | None => None
  end.

(** ** The provider's catalogue of database instance classes

    Burstable families are the T families.  The database service offers
    them from [micro] up: there is no [db.t*.nano]. *)

Definition burstable (c : InstanceClass) : bool :=
  match c with
  | T2 | T3 | T3A | T4G => true
  | M5 | R5 => false
  end.

Definition size_rank (s : InstanceSize) : nat :=
  match s with
  | NANO => 0 | MICRO => 1 | SMALL => 2 | MEDIUM => 3 | LARGE => 4
  | XLARGE => 5 | XLARGE2 => 6
  end.

Definition rds_offers (c : InstanceClass) (s : InstanceSize) : bool :=
  match c, s with
  | (T2 | T3 | T4G), (MICRO | SMALL | MEDIUM | LARGE | XLARGE | XLARGE2) =>
      true
  | (M5 | R5), (LARGE | XLARGE | XLARGE2) => true
  | _, _ => false
  end.

Definition is_general_purpose_ssd (t : StorageType) : bool :=
  match t with
  | GP2 | GP3 => true
  | _ => false
  end.

(** ** Identifiers the database service accepts

    1 to 63 letters, digits or hyphens; the first a letter; no hyphen at
    the end and no two hyphens in a row. *)

Definition is_letter (c : ascii) : bool :=
  let n := N_of_ascii c in
  (((65 <=? n) && (n <=? 90)) || ((97 <=? n) && (n <=? 122)))%N.

Definition is_hyphen (c : ascii) : bool := (c =? "-")%char.

Definition rds_identifier_char (c : ascii) : bool :=
  is_letter c || is_digit c || is_hyphen c.

Fixpoint hyphens_ok (s : string) : bool :=
  match s with
  | EmptyString => true
  | String c rest =>
      match rest with
      | EmptyString => negb (is_hyphen c)
      | String d _ => negb (is_hyphen c && is_hyphen d) && hyphens_ok rest
      end
  end.

Definition rds_identifier (s : string) : bool :=
  match s with
  | EmptyString => false
  | String c _ =>
      is_letter c && (String.length s <=? 63)%nat
      && string_forall rds_identifier_char s && hyphens_ok s
  end.

(** ** More readings of the synthesized stack *)

Definition outputs (st : Stack) : list (string * string) :=
  flat_map
    (fun kc => match snd kc with COutput v => [(fst kc, v)] | _ => [] end)
    (children st).

Definition security_groups_of (st : Stack)
  : list (string * SecurityGroup) :=
  flat_map
    (fun kc =>
       match snd kc with CSecurityGroup g => [(fst kc, g)] | _ => [] end)
    (children st).








(** ** What a role permits

    A schedule with a universal target
    [arn:aws:scheduler:::aws-sdk:service:operation] calls that operation
    of that service under the role of the target; the call needs the
    action [service:operation] on the resource it touches.  Action names
    are compared without regard to case.  Only literal actions and
    resources are matched (the stack writes no wildcard), so [permits]
    never says yes where the provider would say no. *)

Definition lower (c : ascii) : ascii :=
  let n := N_of_ascii c in
  if ((65 <=? n) && (n <=? 90))%N then ascii_of_N (n + 32) else c.

Fixpoint lowercase (s : string) : string :=
  match s with
  | EmptyString => EmptyString
  | String c rest => String (lower c) (lowercase rest)
  end.

Definition action_eqb (a b : string) : bool :=
  String.eqb (lowercase a) (lowercase b).

Definition statement_permits (s : PolicyStatement)
  (action resource : string) : bool :=
  existsb (action_eqb action) (actions s)
  && existsb (String.eqb resource) (resources s).

Definition permits (r : Role) (action resource : string) : bool :=
  existsb (fun s => statement_permits s action resource)
    (policy_statements r).

(** The action a universal target calls. *)
Definition target_action (target_arn : string) : option string :=
  strip_prefix "arn:aws:scheduler:::aws-sdk:" target_arn.

(** Minutes since midnight. *)
Definition minute_of_day (t : nat * nat) : nat := 60 * fst t + snd t.

(** ** Sample environments *)

(** A region that offers three availability zones. *)
Definition example_environment : Environment :=
  {| partition := "aws";
     region := "eu-west-1";
     account := "123456789012";
     availability_zones := ["eu-west-1a"; "eu-west-1b"; "eu-west-1c"];
     ref_of := fun id => "stack-" ++ id;
     get_att := fun id attribute => id ++ "." ++ attribute |}.

(** An environment whose availability-zone context lists one zone. *)
Definition one_zone_environment : Environment :=
  {| partition := "aws";
     region := "ap-northeast-3";
     account := "123456789012";
     availability_zones := ["ap-northeast-3a"];
     ref_of := fun id => "stack-" ++ id;
     get_att := fun id attribute => id ++ "." ++ attribute |}.

(** An identifier string with a line feed in it: no double quote, no
    backslash. *)
Definition identifier_with_line_feed : string :=
  "db" ++ String "010" "1".

(** * Properties *)

(** ** Strings *)

Lemma append_length (a b : string) :
  String.length (a ++ b) = (String.length a + String.length b)%nat.
Proof.
  induction a as [|c a IH]; simpl; [reflexivity|].
  now rewrite IH.
Qed.

Lemma string_forall_append (p : ascii -> bool) (a b : string) :
  string_forall p (a ++ b) = string_forall p a && string_forall p b.
Proof.
  induction a as [|c a IH]; simpl; [reflexivity|].
  now rewrite IH, andb_assoc.
Qed.

Lemma string_forall_impl (p q : ascii -> bool) (s : string) :
  (forall c, p c = true -> q c = true) ->
  string_forall p s = true -> string_forall q s = true.
Proof.
  intros Hpq. induction s as [|c s IH]; simpl; [reflexivity|].
  intros H. apply andb_true_iff in H as [Hc Hs].
  now rewrite (Hpq c Hc), (IH Hs).
Qed.

(** Letters, digits and the hyphen are plain for JSON. *)
Lemma rds_identifier_char_plain (c : ascii) :
  rds_identifier_char c = true -> json_plain_char c = true.
Proof.
  destruct c as [[] [] [] [] [] [] [] []]; vm_compute; congruence.
Qed.

Lemma rds_identifier_plain (s : string) :
  rds_identifier s = true -> json_plain s = true.
Proof.
  destruct s as [|c s]; [discriminate|].
  unfold rds_identifier, json_plain. intros H.
  apply andb_true_iff in H as [H _].
  apply andb_true_iff in H as [_ H].
  revert H. apply string_forall_impl, rds_identifier_char_plain.
Qed.

Lemma json_plain_split (s : string) :
  json_plain s = no_quote_no_backslash s && no_control_character s.
Proof.
  unfold json_plain, no_quote_no_backslash, no_control_character.
  induction s as [|c s IH]; simpl; [reflexivity|].
  rewrite IH. unfold json_plain_char.
  destruct (negb (c =? "034")%char), (negb (c =? "\")%char),
    (negb (is_control c)); simpl; try reflexivity.
  all: now rewrite ?andb_false_r.
Qed.

(** ** The JSON reader on the text the f-string produces *)

Lemma json_chars_plain (s rest : string) :
  json_plain s = true ->
  json_chars (s ++ String "034" rest) = Some (s, rest).
Proof.
  induction s as [|c s IH]; simpl; [reflexivity|].
  intros H. apply andb_true_iff in H as [Hc Hs].
  unfold json_plain_char in Hc.
  apply andb_true_iff in Hc as [Hc Hctl].
  apply andb_true_iff in Hc as [Hq Hb].
  apply negb_true_iff in Hq, Hb, Hctl.
  rewrite Hq, Hb, Hctl, (IH Hs). reflexivity.
Qed.

Lemma json_value_input_fstring (n : nat) (identifier : string) :
  json_plain identifier = true ->
  json_value (S (S (S n))) (input_fstring identifier)
  = Some (JObject [("DbInstanceIdentifier", JString identifier)], "").
Proof.
  intros H.
  change (input_fstring identifier)
    with (String "{"
            (String "034"
               ("DbInstanceIdentifier"
                ++ String "034"
                     (String ":"
                        (String " "
                           (String "034"
                              (identifier ++ String "034" "}"))))))).
  cbn [json_value skip_ws is_ws Ascii.eqb Bool.eqb orb].
  cbn [json_members skip_ws is_ws Ascii.eqb Bool.eqb orb].
  rewrite (json_chars_plain "DbInstanceIdentifier" _ eq_refl).
  cbn [json_value skip_ws is_ws Ascii.eqb Bool.eqb orb].
  rewrite (json_chars_plain identifier "}" H).
  reflexivity.
Qed.

Lemma json_loads_input_fstring (identifier : string) :
  json_plain identifier = true ->
  json_loads (input_fstring identifier)
  = Some (JObject [("DbInstanceIdentifier", JString identifier)]).
Proof.
  intros H. unfold json_loads.
  assert (Hfuel : exists n,
             (2 * String.length (input_fstring identifier) + 2 = S (S (S n)))%nat).
  { unfold input_fstring. simpl String.length.
    eexists. rewrite Nat.mul_succ_r, Nat.add_comm. simpl. reflexivity. }
  destruct Hfuel as [n ->].
  rewrite (json_value_input_fstring n identifier H). reflexivity.
Qed.

Lemma strip_suffix_append (suffix s : string) :
  strip_suffix suffix (s ++ suffix) = Some s.
Proof.
  induction s as [|c s IH].
  - simpl. destruct suffix; simpl; now rewrite ?String.eqb_refl, ?Ascii.eqb_refl.
  - assert (Hne : String.eqb (String c s ++ suffix) suffix = false).
    { apply String.eqb_neq. intros Heq.
      apply (f_equal String.length) in Heq.
      rewrite append_length in Heq. simpl in Heq. lia. }
    change (strip_suffix suffix (String c s ++ suffix))
      with (if String.eqb (String c s ++ suffix) suffix then Some EmptyString
            else match strip_suffix suffix (s ++ suffix) with
                 | Some r => Some (String c r)
                 | None => None
                 end).
    now rewrite Hne, IH.
Qed.

Lemma strip_prefix_append (p r : string) : strip_prefix p (p ++ r) = Some r.
Proof.
  induction p as [|c p IH]; simpl.
  - now destruct r.
  - now rewrite Ascii.eqb_refl.
Qed.

(** The identifier can be read back from the payload, whatever it is. *)
Lemma payload_identifier_input_fstring (identifier : string) :
  payload_identifier (input_fstring identifier) = Some identifier.
Proof.
  unfold payload_identifier.
  change (input_fstring identifier)
    with (("{" ++ dquote ++ "DbInstanceIdentifier" ++ dquote ++ ": "
           ++ dquote) ++ (identifier ++ (dquote ++ "}"))).
  rewrite strip_prefix_append.
  apply strip_suffix_append.
Qed.

(** ** Firing times *)

Lemma filter_guard {A} (b : bool) (f : A -> bool) (l : list A) :
  filter (fun x => b && f x) l = if b then filter f l else [].
Proof.
  destruct b; simpl.
  - reflexivity.
  - induction l; simpl; auto.
Qed.

(** On a day the expression matches, the firing times are those of its
    hour and minute fields; on any other day there is none. *)
Lemma fire_times_day (e : CronExpression) (d : Day) :
  fire_times e d
  = if day_matches e d then filter (time_matches e) minutes_of_day else [].
Proof.
  unfold fire_times, fires. apply filter_guard.
Qed.

(** ** The readers on sample texts *)

Example json_loads_mixed :
  json_loads " [1, -2.5e+3, true, null, {}, [ ], 0.1] "
  = Some (JArray [JNumber "1"; JNumber "-2.5e+3"; JBool true; JNull;
                  JObject []; JArray []; JNumber "0.1"]).
Proof. reflexivity. Qed.

Example json_loads_leading_zero : json_loads "[01]" = None.
Proof. reflexivity. Qed.

(** A backslash in the identifier starts an escape: the text is read, but
    not as the identifier. *)
Example json_loads_backslash :
  json_loads (input_fstring "a\nb")
  = Some (JObject [("DbInstanceIdentifier",
                    JString ("a" ++ String "010" "b"))]).
Proof. reflexivity. Qed.

(** A double quote in the identifier ends the string early. *)
Example json_loads_quote :
  json_loads (input_fstring ("a" ++ dquote ++ "b")) = None.
Proof. reflexivity. Qed.

Example parse_cron_lists_and_steps :
  parse_cron "cron(0/15 8-17 ? JAN,MAR 2,4 2030)"
  = Some {| cron_minutes := [CronStep 0 15];
            cron_hours := [CronRange 8 17];
            cron_day_of_month := [CronAny];
            cron_month := [CronValue 1; CronValue 3];
            cron_day_of_week := [CronValue 2; CronValue 4];
            cron_year := [CronValue 2030] |}.
Proof. reflexivity. Qed.

(** Day-of-month and day-of-week cannot both be specified. *)
Example parse_cron_both_days : parse_cron "cron(30 6 * * * *)" = None.
Proof. reflexivity. Qed.

Example clock_time_stop_description :
  clock_time "Stops RDS instance at 6 PM UTC" = Some (18, 0).
Proof. reflexivity. Qed.

(** ** The synthesized stack

    The constructor raises nothing: no id is used twice and every
    reference it follows exists.  Each proof below first runs it, on an
    arbitrary environment, to the tree it leaves behind. *)

Ltac run_constructor :=
  cbv - [String.append format_arn input_fstring firstn subnets_for
         availability_zones ref_of get_att partition region account
         InstanceType_of Port_tcp].

Ltac synthesize env id :=
  let r :=
    eval cbv - [String.append format_arn input_fstring firstn subnets_for
                availability_zones ref_of get_att partition region account
                InstanceType_of Port_tcp]
    in (CdkProjectStack env id) in
  lazymatch r with
  | Some ?st => exists st
  end.

Ltac read := split; [run_constructor; reflexivity|].

(** C1: the database security group has exactly one ingress rule; its
    source is the security group of the compute instance and it opens TCP
    3306; no rule of the group has a CIDR range as its source (neither any
    IPv4 address nor the address block of the VPC), and the rule the source
    keeps in a comment (the VPC block on TCP 5432) is not in it. *)
Theorem database_ingress_only_from_compute
  (env : Environment) (construct_id : string) :
  exists st v i d g r,
    CdkProjectStack env construct_id = Some st
    /\ vpcs st = [v] /\ instances st = [i] /\ databases st = [d]
    /\ map (security_group st) (security_groups d) = [Some g]
    /\ ingress_rules g = [r]
    /\ rule_peer r = SecurityGroupPeer (instance_security_group i)
    /\ rule_port r = Port_tcp 3306%Z
    /\ Forall (fun x => is_cidr_peer (rule_peer x) = false) (ingress_rules g)
    /\ Forall (fun x => rule_peer x <> Peer_any_ipv4
                        /\ rule_peer x <> Peer_ipv4 (vpc_cidr_block v))
         (ingress_rules g)
    /\ ~ In (commented_out_rule v) (ingress_rules g)
    /\ Forall (fun x => rule_port x <> Port_tcp 5432%Z) (ingress_rules g).
Proof.
  synthesize env construct_id.
  do 5 eexists.
  do 8 read.
  split. { repeat constructor. }
  split. { repeat constructor; discriminate. }
  split. { intros [H | []]. discriminate H. }
  repeat constructor. discriminate.
Qed.

(** C2: the stack has one role; its trust policy names the service
    principal scheduler.amazonaws.com and nothing else; it carries exactly
    one policy statement, whose actions are rds:StartDBInstance and
    rds:StopDBInstance and whose only resource is the ARN of the database
    instance of this stack, which is not the wildcard. *)
Theorem scheduler_role_least_privilege
  (env : Environment) (construct_id : string) :
  exists st d r s,
    CdkProjectStack env construct_id = Some st
    /\ databases st = [d] /\ roles st = [r]
    /\ assume_role_principals r = [ServicePrincipal "scheduler.amazonaws.com"]
    /\ policy_statements r = [s]
    /\ actions s = ["rds:StartDBInstance"; "rds:StopDBInstance"]
    /\ resources s = [instance_arn d]
    /\ instance_arn d <> "*"
    /\ ~ In "*" (resources s).
Proof.
  synthesize env construct_id.
  do 3 eexists.
  do 6 read.
  split. { run_constructor. reflexivity. }
  split. { run_constructor. unfold format_arn. simpl. discriminate. }
  run_constructor. unfold format_arn. simpl.
  intros [H | []]. discriminate H.
Qed.

(** C3: the stack has one database instance and two schedules, the stop
    and the start schedule; the identifier carried by the payload of each
    is the identifier of that database instance. *)
Theorem schedules_target_the_stack_database
  (env : Environment) (construct_id : string) :
  exists st d stop start,
    CdkProjectStack env construct_id = Some st
    /\ databases st = [d]
    /\ schedules st
       = [("StopRdsSchedule", stop); ("StartRdsSchedule", start)]
    /\ input (target stop) = input_fstring (instance_identifier d)
    /\ input (target start) = input_fstring (instance_identifier d)
    /\ payload_identifier (input (target stop))
       = Some (instance_identifier d)
    /\ payload_identifier (input (target start))
       = Some (instance_identifier d)
    /\ payload_identifier (input (target stop))
       = payload_identifier (input (target start)).
Proof.
  synthesize env construct_id.
  do 3 eexists.
  do 5 read.
  cbn [input target instance_identifier].
  rewrite payload_identifier_input_fstring. auto.
Qed.

(** C4: the stop schedule's expression is the cron expression with fields
    30, 6, every day of month, every month, no day of week, every year,
    and the start schedule's the one with fields 30, 22, no day of month,
    every month, MON-FRI, every year, each exactly as the source spells
    it; both are readable; the stop schedule fires exactly once on every
    day (at 06:30), the start schedule exactly once on every day from
    Monday to Friday (at 22:30) and not at all on a Saturday or a
    Sunday. *)
Theorem schedule_expressions_fire_daily_and_on_weekdays
  (env : Environment) (construct_id : string) :
  exists st stop start e_stop e_start,
    CdkProjectStack env construct_id = Some st
    /\ schedules st
       = [("StopRdsSchedule", stop); ("StartRdsSchedule", start)]
    /\ schedule_expression stop = "cron(30 6 * * ? *)"
    /\ schedule_expression start = "cron(30 22 ? * MON-FRI *)"
    /\ parse_cron (schedule_expression stop) = Some e_stop
    /\ parse_cron (schedule_expression start) = Some e_start
    /\ (forall d, fire_times e_stop d = [(6, 30)])
    /\ (forall d, length (fire_times e_stop d) = 1)
    /\ (forall d, fire_times e_start d
                  = if is_weekend (day_of_week d) then [] else [(22, 30)])
    /\ (forall d, length (fire_times e_start d)
                  = if is_weekend (day_of_week d) then 0 else 1).
Proof.
  synthesize env construct_id.
  do 4 eexists.
  do 6 read.
  assert (Hstop : forall d,
             fire_times
               {| cron_minutes := [CronValue 30]; cron_hours := [CronValue 6];
                  cron_day_of_month := [CronAll]; cron_month := [CronAll];
                  cron_day_of_week := [CronAny]; cron_year := [CronAll] |} d
             = [(6, 30)]).
  { intros d. rewrite fire_times_day. vm_compute. reflexivity. }
  assert (Hstart : forall d,
             fire_times
               {| cron_minutes := [CronValue 30]; cron_hours := [CronValue 22];
                  cron_day_of_month := [CronAny]; cron_month := [CronAll];
                  cron_day_of_week := [CronRange 2 6];
                  cron_year := [CronAll] |} d
             = if is_weekend (day_of_week d) then [] else [(22, 30)]).
  { intros [y m dm dw]. rewrite fire_times_day.
    destruct dw; vm_compute; reflexivity. }
  split; [exact Hstop|].
  split. { intros d. now rewrite Hstop. }
  split; [exact Hstart|].
  intros d. rewrite Hstart. now destruct (is_weekend (day_of_week d)).
Qed.

(** C5: when the identifier the environment gives the database is one the
    database service accepts, the input of each schedule is a JSON object
    with the single key DbInstanceIdentifier, mapped to the identifier of
    the stack's database; the stop schedule sends it to stopDBInstance and
    the start schedule to startDBInstance. *)
Theorem schedule_payloads_single_key
  (env : Environment) (construct_id : string)
  (Hid : rds_identifier (ref_of env "RdsInstance") = true) :
  exists st d stop start,
    CdkProjectStack env construct_id = Some st
    /\ databases st = [d]
    /\ schedules st
       = [("StopRdsSchedule", stop); ("StartRdsSchedule", start)]
    /\ instance_identifier d = ref_of env "RdsInstance"
    /\ arn (target stop) = "arn:aws:scheduler:::aws-sdk:rds:stopDBInstance"
    /\ arn (target start) = "arn:aws:scheduler:::aws-sdk:rds:startDBInstance"
    /\ json_loads (input (target stop))
       = Some (JObject [("DbInstanceIdentifier",
                         JString (instance_identifier d))])
    /\ json_loads (input (target start))
       = Some (JObject [("DbInstanceIdentifier",
                         JString (instance_identifier d))]).
Proof.
  synthesize env construct_id.
  do 3 eexists.
  do 6 read.
  cbn [input target instance_identifier].
  rewrite (json_loads_input_fstring _ (rds_identifier_plain _ Hid)). auto.
Qed.

Lemma schedule_payloads_single_key_witness :
  exists st d stop start,
    CdkProjectStack example_environment "CdkProjectStack" = Some st
    /\ databases st = [d]
    /\ schedules st
       = [("StopRdsSchedule", stop); ("StartRdsSchedule", start)]
    /\ instance_identifier d = ref_of example_environment "RdsInstance"
    /\ arn (target stop) = "arn:aws:scheduler:::aws-sdk:rds:stopDBInstance"
    /\ arn (target start) = "arn:aws:scheduler:::aws-sdk:rds:startDBInstance"
    /\ json_loads (input (target stop))
       = Some (JObject [("DbInstanceIdentifier",
                         JString (instance_identifier d))])
    /\ json_loads (input (target start))
       = Some (JObject [("DbInstanceIdentifier",
                         JString (instance_identifier d))]).
Proof.
  apply (schedule_payloads_single_key example_environment "CdkProjectStack").
  reflexivity.
Defined.

(** C6: the stack has one database instance: MySQL at the pinned version
    8.0.43, class t3.micro (a burstable family, and no burstable class the
    database service offers is smaller than micro), not multi-AZ, 20 GiB
    of storage of type gp2 (general-purpose SSD), deletion protection off,
    removal policy destroy. *)
Theorem database_instance_configuration
  (env : Environment) (construct_id : string) :
  exists st d,
    CdkProjectStack env construct_id = Some st
    /\ databases st = [d]
    /\ engine d = mysql VER_8_0_43
    /\ mysql_full_version VER_8_0_43 = "8.0.43"
    /\ db_instance_type d = InstanceType_of T3 MICRO
    /\ instance_type_identifier (db_instance_type d) = "t3.micro"
    /\ burstable T3 = true
    /\ rds_offers T3 MICRO = true
    /\ (forall c s, burstable c = true -> rds_offers c s = true ->
                    size_rank MICRO <= size_rank s)
    /\ multi_az d = false
    /\ allocated_storage d = 20%Z
    /\ storage_type d = GP2
    /\ is_general_purpose_ssd (storage_type d) = true
    /\ deletion_protection d = false
    /\ removal_policy d = DESTROY.
Proof.
  synthesize env construct_id.
  eexists.
  do 8 read.
  split. { intros [] []; simpl; intros; try discriminate; lia. }
  do 5 read.
  reflexivity.
Qed.

(** ** The network *)

Lemma tier_zones_one_tier (t t' : SubnetType) (azs : list string) :
  map subnet_availability_zone
    (filter (fun s => SubnetType_eqb (subnet_type s) t')
       (map (fun az => {| subnet_type := t; subnet_availability_zone := az |})
          azs))
  = if SubnetType_eqb t t' then azs else [].
Proof.
  induction azs as [|az azs IH]; simpl.
  - now destruct (SubnetType_eqb t t').
  - destruct (SubnetType_eqb t t'); simpl; congruence.
Qed.

(** With the default subnet configuration, the public tier and the private
    tier each have one subnet per zone of the network. *)
Lemma tier_zones_default (t : SubnetType) (azs : list string) (n : nat)
  (cidr : string) :
  tier_zones t
    {| vpc_max_azs := n;
       vpc_availability_zones := azs;
       vpc_subnets := subnets_for azs default_subnet_configuration;
       vpc_cidr_block := cidr |}
  = match t with
    | PUBLIC | PRIVATE_WITH_EGRESS => azs
    | PRIVATE_ISOLATED => []
    end.
Proof.
  unfold tier_zones, subnets_for, default_subnet_configuration.
  cbn [vpc_subnets flat_map].
  rewrite !filter_app, !map_app, !tier_zones_one_tier.
  destruct t; simpl; now rewrite ?app_nil_r.
Qed.

(** C7, as the code has it: in every environment the stack declares
    exactly one virtual network; [max_azs=2] is a cap, so the network
    spans the first two availability zones the environment offers, that
    is min(2, n) zones when n are offered; its public tier and its private
    tier each have one subnet in every zone it spans. *)
Theorem vpc_spans_at_most_two_offered_zones
  (env : Environment) (construct_id : string) :
  exists st v,
    CdkProjectStack env construct_id = Some st
    /\ vpcs st = [v]
    /\ vpc_max_azs v = 2
    /\ vpc_availability_zones v = firstn 2 (availability_zones env)
    /\ length (vpc_availability_zones v)
       = Nat.min 2 (length (availability_zones env))
    /\ tier_zones PUBLIC v = vpc_availability_zones v
    /\ tier_zones PRIVATE_WITH_EGRESS v = vpc_availability_zones v.
Proof.
  synthesize env construct_id.
  eexists.
  do 4 read.
  split. { cbn [vpc_availability_zones]. apply length_firstn. }
  split.
  - exact (tier_zones_default PUBLIC (firstn 2 (availability_zones env))
             2 (get_att env "Vpc" "CidrBlock")).
  - exact (tier_zones_default PRIVATE_WITH_EGRESS
             (firstn 2 (availability_zones env))
             2 (get_att env "Vpc" "CidrBlock")).
Qed.

(** C7 fails as stated: where one availability zone is offered, the one
    network of the stack spans one zone, fewer than two. *)
Lemma vpc_one_zone_counterexample :
  exists st v,
    CdkProjectStack one_zone_environment "CdkProjectStack" = Some st
    /\ vpcs st = [v]
    /\ vpc_availability_zones v = ["ap-northeast-3a"]
    /\ length (vpc_availability_zones v) = 1
    /\ (2 <=? length (vpc_availability_zones v))%nat = false.
Proof.
  synthesize one_zone_environment "CdkProjectStack".
  eexists. repeat (split; [vm_compute; reflexivity|]).
  vm_compute. reflexivity.
Qed.

(** C8: the security group of the compute instance has an ingress rule
    whose source is any IPv4 address, 0.0.0.0/0, and which opens TCP port
    22. *)
Theorem compute_ssh_open_to_any_ipv4
  (env : Environment) (construct_id : string) :
  exists st i g r,
    CdkProjectStack env construct_id = Some st
    /\ instances st = [i]
    /\ security_group st (instance_security_group i) = Some g
    /\ In r (ingress_rules g)
    /\ rule_peer r = Peer_any_ipv4
    /\ rule_peer r = CidrIPv4 "0.0.0.0/0"
    /\ rule_port r = Port_tcp 22%Z
    /\ port_protocol (rule_port r) = TCP
    /\ from_port (rule_port r) = 22%Z
    /\ to_port (rule_port r) = 22%Z.
Proof.
  synthesize env construct_id.
  do 3 eexists.
  do 3 read.
  split. { run_constructor. left. reflexivity. }
  repeat split.
Qed.

(** C9: the description of the start schedule is the text
    "Starts RDS instance at 8 AM UTC (Mon-Fri)", which names 08:00, while
    its expression fires at 22:30 and at no other time: on every day, any
    time at which the start schedule fires differs from the time its
    description names. *)
Theorem start_description_names_another_time
  (env : Environment) (construct_id : string) :
  exists st stop start e,
    CdkProjectStack env construct_id = Some st
    /\ schedules st
       = [("StopRdsSchedule", stop); ("StartRdsSchedule", start)]
    /\ description start = "Starts RDS instance at 8 AM UTC (Mon-Fri)"
    /\ clock_time (description start) = Some (8, 0)
    /\ schedule_expression start = "cron(30 22 ? * MON-FRI *)"
    /\ parse_cron (schedule_expression start) = Some e
    /\ (forall d t, fires e d t = true -> t = (22, 30))
    /\ (exists d, fire_times e d = [(22, 30)])
    /\ (forall d t, fires e d t = true ->
                    clock_time (description start) <> Some t).
Proof.
  synthesize env construct_id.
  do 3 eexists.
  do 6 read.
  assert (Hfire : forall d t,
             fires
               {| cron_minutes := [CronValue 30]; cron_hours := [CronValue 22];
                  cron_day_of_month := [CronAny]; cron_month := [CronAll];
                  cron_day_of_week := [CronRange 2 6];
                  cron_year := [CronAll] |} d t = true ->
             t = (22, 30)).
  { intros d [h m] H. unfold fires in H.
    apply andb_true_iff in H as [_ H]. unfold time_matches in H.
    cbn [cron_hours cron_minutes field_matches existsb item_matches fst snd]
      in H.
    rewrite !orb_false_r in H.
    apply andb_true_iff in H as [Hh Hm].
    apply Nat.eqb_eq in Hh, Hm. now subst. }
  split; [exact Hfire|].
  split.
  { exists {| year := 2026; month := 11; day_of_month := 4;
              day_of_week := WED |}.
    vm_compute. reflexivity. }
  intros d t H. apply Hfire in H. subst t.
  run_constructor. discriminate.
Qed.

(** ** The payload as a JSON text *)

(** [target_payload] is bound and never read: what follows the binding
    does not depend on it. *)
Lemma target_payload_unused
  (vpc sg instance rds_sg rds_instance scheduler_role : string)
  (p q : list (string * string)) :
  init_after_target_payload vpc sg instance rds_sg rds_instance
    scheduler_role p
  = init_after_target_payload vpc sg instance rds_sg rds_instance
      scheduler_role q.
Proof. reflexivity. Qed.

(** C10, as the code has it: the input of each schedule is the f-string
    applied to the identifier of the database, and nothing of the
    constructor depends on [target_payload]; for every identifier with no
    double quote, no backslash and no control character (below U+0020),
    that text is a well-formed JSON object with the single key
    DbInstanceIdentifier, mapped to exactly the identifier. *)
Theorem input_fstring_is_json_for_plain_identifiers
  (env : Environment) (construct_id : string) (identifier : string)
  (Hquote : no_quote_no_backslash identifier = true)
  (Hcontrol : no_control_character identifier = true) :
  (forall vpc sg instance rds_sg rds_instance scheduler_role p q,
      init_after_target_payload vpc sg instance rds_sg rds_instance
        scheduler_role p
      = init_after_target_payload vpc sg instance rds_sg rds_instance
          scheduler_role q)
  /\ (exists st d stop start,
         CdkProjectStack env construct_id = Some st
         /\ databases st = [d]
         /\ schedules st
            = [("StopRdsSchedule", stop); ("StartRdsSchedule", start)]
         /\ input (target stop) = input_fstring (instance_identifier d)
         /\ input (target start) = input_fstring (instance_identifier d))
  /\ json_loads (input_fstring identifier)
     = Some (JObject [("DbInstanceIdentifier", JString identifier)]).
Proof.
  split; [intros; apply target_payload_unused|].
  split.
  - synthesize env construct_id.
    do 3 eexists.
    do 4 read.
    reflexivity.
  - apply json_loads_input_fstring.
    now rewrite json_plain_split, Hquote, Hcontrol.
Qed.

Lemma input_fstring_is_json_witness :
  (forall vpc sg instance rds_sg rds_instance scheduler_role p q,
      init_after_target_payload vpc sg instance rds_sg rds_instance
        scheduler_role p
      = init_after_target_payload vpc sg instance rds_sg rds_instance
          scheduler_role q)
  /\ (exists st d stop start,
         CdkProjectStack example_environment "CdkProjectStack" = Some st
         /\ databases st = [d]
         /\ schedules st
            = [("StopRdsSchedule", stop); ("StartRdsSchedule", start)]
         /\ input (target stop) = input_fstring (instance_identifier d)
         /\ input (target start) = input_fstring (instance_identifier d))
  /\ json_loads (input_fstring "stack-RdsInstance")
     = Some (JObject [("DbInstanceIdentifier", JString "stack-RdsInstance")]).
Proof.
  apply (input_fstring_is_json_for_plain_identifiers
           example_environment "CdkProjectStack" "stack-RdsInstance");
    reflexivity.
Defined.

(** C10 fails as stated: an identifier with a line feed has no double
    quote and no backslash, and the text the f-string makes of it is not
    well-formed JSON: the reader rejects it, and not for want of fuel. *)
Lemma input_fstring_line_feed_counterexample :
  no_quote_no_backslash identifier_with_line_feed = true
  /\ json_loads (input_fstring identifier_with_line_feed) = None
  /\ (forall fuel,
        json_value fuel (input_fstring identifier_with_line_feed) = None).
Proof.
  split; [reflexivity|]. split; [vm_compute; reflexivity|].
  intros [|[|[|n]]]; reflexivity.
Qed.

(** * Further properties of the constructor *)

(** ** When the interpolated payload is the intended JSON text *)

Lemma append_assoc_string (a b c : string) : (a ++ b) ++ c = a ++ (b ++ c).
Proof.
  induction a as [|x a IH]; simpl; [reflexivity|]. now rewrite IH.
Qed.

Lemma append_last_inj (a b : string) (x y : ascii) :
  a ++ String x "" = b ++ String y "" -> a = b /\ x = y.
Proof.
  revert b. induction a as [|c a IH]; intros [|d b] H; simpl in H.
  - injection H as ->. auto.
  - injection H as _ H. destruct b; discriminate.
  - injection H as _ H. destruct a; discriminate.
  - injection H as -> H. destruct (IH _ H) as [-> ->]. auto.
Qed.

Lemma utf8_of_unit_length (u : N) : String.length (utf8_of_unit u) <= 3.
Proof.
  unfold utf8_of_unit.
  destruct (u <? 128)%N; [simpl; lia|].
  destruct (u <? 2048)%N; simpl; lia.
Qed.

Lemma prepend_some (p : string) (x : option (string * string))
  (d r : string) :
  prepend p x = Some (d, r) ->
  exists d', x = Some (d', r) /\ d = p ++ d'.
Proof.
  destruct x as [[d' r']|]; simpl; [|discriminate].
  intros H. injection H as <- <-. eauto.
Qed.

(** What the string reader returns: the rest of the text follows a double
    quote of the text; the decoded string is never longer than what was
    read, and it is as long only when the text was copied character by
    character, each one plain. *)
Lemma json_chars_inversion (n : nat) :
  forall s d r,
    String.length s <= n ->
    json_chars s = Some (d, r) ->
    (exists pre, s = pre ++ String "034" r)
    /\ String.length d + S (String.length r) <= String.length s
    /\ (String.length d + S (String.length r) = String.length s ->
        json_plain d = true).
Proof.
  induction n as [|n IH]; intros s d r Hn H.
  - destruct s; [discriminate H | simpl in Hn; lia].
  - destruct s as [|c rest]; [discriminate H|].
    simpl in Hn. cbn [json_chars] in H.
    destruct (c =? "034")%char eqn:Hq.
    { apply Ascii.eqb_eq in Hq. subst c. injection H as <- <-.
      split; [exists ""; reflexivity|]. simpl. split; [lia|reflexivity]. }
    destruct (c =? "\")%char eqn:Hb.
    { destruct rest as [|e rest1]; [discriminate H|].
      destruct (e =? "u")%char.
      - destruct rest1 as [|h1 [|h2 [|h3 [|h4 rest2]]]]; try discriminate H.
        destruct (hex4 h1 h2 h3 h4) as [u|]; [|discriminate H].
        apply prepend_some in H as (d' & H & ->).
        apply IH in H as ([pre Hpre] & Hlen & _); [|simpl in Hn; lia].
        pose proof (utf8_of_unit_length u) as Hu.
        rewrite append_length. simpl String.length.
        split; [|lia].
        exists (String c (String e (String h1 (String h2 (String h3
                 (String h4 pre)))))).
        simpl. now rewrite Hpre.
      - destruct (escaped e) as [x|]; [|discriminate H].
        apply prepend_some in H as (d' & H & ->).
        apply IH in H as ([pre Hpre] & Hlen & _); [|simpl in Hn; lia].
        simpl String.length. split; [|lia].
        exists (String c (String e pre)). simpl. now rewrite Hpre. }
    destruct (is_control c) eqn:Hc; [discriminate H|].
    apply prepend_some in H as (d' & H & ->).
    apply IH in H as ([pre Hpre] & Hlen & Hplain); [|lia].
    simpl String.length. split; [|split; [lia|]].
    + exists (String c pre). simpl. now rewrite Hpre.
    + intros Heq. unfold json_plain. cbn [append string_forall].
      unfold json_plain_char. rewrite Hq, Hb, Hc. simpl.
      apply Hplain. lia.
Qed.

(** If the value read from the payload is the identifier itself, the
    identifier is plain. *)
Lemma json_chars_identifier_plain (identifier r : string) :
  json_chars (identifier ++ String "034" "}") = Some (identifier, r) ->
  json_plain identifier = true.
Proof.
  intros H.
  destruct (@json_chars_inversion _ _ _ _ (le_n _) H)
    as ([pre Hpre] & Hlen & Hplain).
  rewrite append_length in Hlen, Hplain. simpl String.length in Hlen, Hplain.
  apply Hplain.
  destruct r as [|x [|y r]]; simpl String.length in *; try lia.
  exfalso.
  change (identifier ++ String "034" "}")
    with (identifier ++ (String "034" "" ++ String "}" "")) in Hpre.
  rewrite <- append_assoc_string in Hpre.
  apply append_last_inj in Hpre as [_ Hpre]. discriminate Hpre.
Qed.

(** Whatever the identifier, a payload that is read at all is an object
    whose first member is DbInstanceIdentifier, with the string the
    reader decodes from the identifier's place. *)
Lemma json_value_input_fstring_inversion (n : nat) (identifier : string)
  (v : json) (rest : string) :
  json_value (S (S (S n))) (input_fstring identifier) = Some (v, rest) ->
  exists str r ms,
    json_chars (identifier ++ String "034" "}") = Some (str, r)
    /\ v = JObject (("DbInstanceIdentifier", JString str) :: ms).
Proof.
  change (input_fstring identifier)
    with (String "{"
            (String "034"
               ("DbInstanceIdentifier"
                ++ String "034"
                     (String ":"
                        (String " "
                           (String "034"
                              (identifier ++ String "034" "}"))))))).
  cbn [json_value skip_ws is_ws Ascii.eqb Bool.eqb orb].
  cbn [json_members skip_ws is_ws Ascii.eqb Bool.eqb orb].
  rewrite (json_chars_plain "DbInstanceIdentifier" _ eq_refl).
  cbn [json_value skip_ws is_ws Ascii.eqb Bool.eqb orb].
  destruct (json_chars (identifier ++ String "034" "}")) as [[str r]|];
    [|discriminate].
  destruct (skip_ws r) as [|c r4]; [discriminate|].
  destruct c as [[] [] [] [] [] [] [] []]; try discriminate.
  - intros H. injection H as <- <-. eauto.
  - match goal with
    | |- match match ?x with _ => _ end with _ => _ end = _ -> _ =>
        destruct x as [[ms r5]|]; [|discriminate]
    end.
    intros H. injection H as <- <-. eauto.
Qed.

(** X10: the payload of lines 103 and 116 is the JSON object with the
    single key DbInstanceIdentifier mapped to the identifier exactly when
    the identifier has no double quote, no backslash and no control
    character. *)
Theorem input_fstring_json_iff_plain (identifier : string) :
  json_loads (input_fstring identifier)
  = Some (JObject [("DbInstanceIdentifier", JString identifier)])
  <-> json_plain identifier = true.
Proof.
  split; [|apply json_loads_input_fstring].
  unfold json_loads.
  assert (Hfuel : exists n,
             (2 * String.length (input_fstring identifier) + 2
              = S (S (S n)))%nat).
  { unfold input_fstring. simpl String.length.
    eexists. rewrite Nat.mul_succ_r, Nat.add_comm. simpl. reflexivity. }
  destruct Hfuel as [n ->].
  destruct (json_value (S (S (S n))) (input_fstring identifier))
    as [[v rest]|] eqn:Hv; [|discriminate].
  apply json_value_input_fstring_inversion in Hv as (str & r & ms & Hs & ->).
  destruct (skip_ws rest); [|discriminate].
  intros H. injection H as -> _.
  exact (json_chars_identifier_plain Hs).
Qed.

(** X11: the payload determines the identifier: what stands between the
    fixed opening and closing text of a payload is the identifier it was
    made from, so payloads of different identifiers differ. *)
Theorem input_fstring_injective :
  (forall identifier,
      payload_identifier (input_fstring identifier) = Some identifier)
  /\ (forall a b, input_fstring a = input_fstring b -> a = b).
Proof.
  split; [exact payload_identifier_input_fstring|].
  intros a b H. apply (f_equal payload_identifier) in H.
  rewrite !payload_identifier_input_fstring in H. now injection H.
Qed.

(** ** The two schedules together *)

Lemma fires_single_time (e : CronExpression) (d : Day) (t : nat * nat)
  (h m : nat) :
  cron_hours e = [CronValue h] -> cron_minutes e = [CronValue m] ->
  fires e d t = true -> t = (h, m).
Proof.
  intros Hh Hm H. destruct t as [th tm]. unfold fires in H.
  apply andb_true_iff in H as [_ H]. unfold time_matches in H.
  rewrite Hh, Hm in H.
  cbn [field_matches existsb item_matches fst snd] in H.
  rewrite !orb_false_r in H.
  apply andb_true_iff in H as [H1 H2].
  apply Nat.eqb_eq in H1, H2. now subst.
Qed.

(** X1: the description of the stop schedule names 6 PM, that is 18:00,
    while its expression fires at 06:30 and at no other time, on every
    day: the stop schedule never fires at the time its description
    names. *)
Theorem stop_description_names_another_time
  (env : Environment) (construct_id : string) :
  exists st stop start e,
    CdkProjectStack env construct_id = Some st
    /\ schedules st
       = [("StopRdsSchedule", stop); ("StartRdsSchedule", start)]
    /\ description stop = "Stops RDS instance at 6 PM UTC"
    /\ clock_time (description stop) = Some (18, 0)
    /\ parse_cron (schedule_expression stop) = Some e
    /\ (forall d, fire_times e d = [(6, 30)])
    /\ (forall d t, fires e d t = true ->
                    clock_time (description stop) <> Some t).
Proof.
  synthesize env construct_id.
  do 3 eexists.
  do 5 read.
  split.
  - intros d. rewrite fire_times_day. vm_compute. reflexivity.
  - intros d t H.
    apply fires_single_time with (h := 6) (m := 30) in H;
      [|reflexivity|reflexivity]. subst t.
    run_constructor. discriminate.
Qed.

(** X2: neither schedule has a flexible time window, so each fires at the
    minute its expression gives.  On a day on which both fire, the stop
    comes before the start, so the last action of such a day is a start;
    and from any firing of the start schedule to the stop of a following
    day at its time of day there are 480 minutes: 22:30 to 06:30. *)
Theorem stop_fires_before_start
  (env : Environment) (construct_id : string) :
  exists st stop start e_stop e_start,
    CdkProjectStack env construct_id = Some st
    /\ schedules st
       = [("StopRdsSchedule", stop); ("StartRdsSchedule", start)]
    /\ mode (flexible_time_window stop) = "OFF"
    /\ mode (flexible_time_window start) = "OFF"
    /\ parse_cron (schedule_expression stop) = Some e_stop
    /\ parse_cron (schedule_expression start) = Some e_start
    /\ (forall d t_stop t_start,
           fires e_stop d t_stop = true -> fires e_start d t_start = true ->
           minute_of_day t_stop < minute_of_day t_start)
    /\ (forall d d' t_start t_stop,
           fires e_start d t_start = true -> fires e_stop d' t_stop = true ->
           1440 - minute_of_day t_start + minute_of_day t_stop = 480).
Proof.
  synthesize env construct_id.
  do 4 eexists.
  do 6 read.
  split.
  - intros d ts tl Hs Hl.
    apply fires_single_time with (h := 6) (m := 30) in Hs;
      [|reflexivity|reflexivity].
    apply fires_single_time with (h := 22) (m := 30) in Hl;
      [|reflexivity|reflexivity].
    subst. apply Nat.ltb_lt. reflexivity.
  - intros d d' tl ts Hl Hs.
    apply fires_single_time with (h := 6) (m := 30) in Hs;
      [|reflexivity|reflexivity].
    apply fires_single_time with (h := 22) (m := 30) in Hl;
      [|reflexivity|reflexivity].
    subst. reflexivity.
Qed.

(** ** The role against what the schedules call *)

(** X3: each schedule calls its operation under the one role of the
    stack, and that role permits the call: the stop schedule targets
    rds:stopDBInstance and the start schedule rds:startDBInstance, the
    role permits both on the ARN of the stack's database, and that ARN is
    the ARN of the very identifier the payloads carry. *)
Theorem schedules_are_permitted_by_their_role
  (env : Environment) (construct_id : string) :
  exists st d r stop start,
    CdkProjectStack env construct_id = Some st
    /\ databases st = [d] /\ roles st = [r]
    /\ schedules st
       = [("StopRdsSchedule", stop); ("StartRdsSchedule", start)]
    /\ target_role_arn (target stop) = role_arn r
    /\ target_role_arn (target start) = role_arn r
    /\ target_action (arn (target stop)) = Some "rds:stopDBInstance"
    /\ target_action (arn (target start)) = Some "rds:startDBInstance"
    /\ instance_arn d = format_arn env "rds" "db" (instance_identifier d)
    /\ payload_identifier (input (target stop))
       = Some (instance_identifier d)
    /\ payload_identifier (input (target start))
       = Some (instance_identifier d)
    /\ permits r "rds:stopDBInstance" (instance_arn d) = true
    /\ permits r "rds:startDBInstance" (instance_arn d) = true.
Proof.
  synthesize env construct_id.
  do 4 eexists.
  do 9 read.
  cbn [input target instance_identifier].
  rewrite payload_identifier_input_fstring.
  do 2 (split; [reflexivity|]).
  unfold permits, statement_permits.
  cbn [policy_statements actions resources instance_arn existsb].
  rewrite String.eqb_refl. split; reflexivity.
Qed.

(** X4: the role permits nothing else: whatever action on whatever
    resource it permits, the resource is the ARN of the stack's database
    and the action is one of rds:StartDBInstance and rds:StopDBInstance
    (in any letter case); in particular it cannot delete the database. *)
Theorem scheduler_role_permits_nothing_else
  (env : Environment) (construct_id : string) :
  exists st d r,
    CdkProjectStack env construct_id = Some st
    /\ databases st = [d] /\ roles st = [r]
    /\ (forall action resource,
           permits r action resource = true ->
           resource = instance_arn d
           /\ (action_eqb action "rds:StartDBInstance"
               || action_eqb action "rds:StopDBInstance") = true)
    /\ (forall resource,
           permits r "rds:DeleteDBInstance" resource = false).
Proof.
  synthesize env construct_id.
  do 2 eexists.
  do 3 read.
  unfold permits, statement_permits.
  cbn [policy_statements actions resources instance_arn existsb].
  split.
  - intros action resource H.
    rewrite !orb_false_r in H. apply andb_true_iff in H as [Ha Hr].
    apply String.eqb_eq in Hr. auto.
  - intros resource. reflexivity.
Qed.

(** ** Outputs, tags and the compute instance *)

(** X5: the stack exports exactly two values: DBEndpoint, the endpoint
    address of the stack's database, and EC2InstancePrivateIP, the private
    address of the stack's compute instance. *)
Theorem outputs_expose_database_and_instance
  (env : Environment) (construct_id : string) :
  exists st d i,
    CdkProjectStack env construct_id = Some st
    /\ databases st = [d] /\ instances st = [i]
    /\ outputs st
       = [("DBEndpoint", db_instance_endpoint_address d);
          ("EC2InstancePrivateIP", instance_private_ip i)].
Proof.
  synthesize env construct_id.
  do 2 eexists.
  do 3 read.
  reflexivity.
Qed.

(** X6: exactly two tags are set, both with the key Name: one on the
    compute instance, with value cdk-ec2-instance, and one on the
    database instance, with value cdk-rds-instance. *)
Theorem name_tags_on_instance_and_database
  (env : Environment) (construct_id : string) :
  exists st i d t1 t2,
    CdkProjectStack env construct_id = Some st
    /\ instances st = [i] /\ databases st = [d]
    /\ tags st = [t1; t2]
    /\ try_find_child (tag_target t1) (children st) = Some (CInstance i)
    /\ tag_key t1 = "Name" /\ tag_value t1 = "cdk-ec2-instance"
    /\ try_find_child (tag_target t2) (children st)
       = Some (CDatabaseInstance d)
    /\ tag_key t2 = "Name" /\ tag_value t2 = "cdk-rds-instance".
Proof.
  synthesize env construct_id.
  do 4 eexists.
  do 9 read.
  reflexivity.
Qed.

(** X7: the stack has one compute instance, of type t3.micro, on the
    latest Amazon Linux 2 image; the security group it is attached to is
    a security group of the stack, and not one the database uses. *)
Theorem compute_instance_configuration
  (env : Environment) (construct_id : string) :
  exists st i d g,
    CdkProjectStack env construct_id = Some st
    /\ instances st = [i] /\ databases st = [d]
    /\ instance_type_identifier (instance_type i) = "t3.micro"
    /\ machine_image i = latest_amazon_linux2
    /\ security_group st (instance_security_group i) = Some g
    /\ ~ In (instance_security_group i) (security_groups d).
Proof.
  synthesize env construct_id.
  do 3 eexists.
  do 6 read.
  run_constructor. intros [H | []]. discriminate H.
Qed.

(** X8: the compute instance, the database instance and every security
    group of the stack are placed in the one network of the stack. *)
Theorem everything_in_the_one_network
  (env : Environment) (construct_id : string) :
  exists st v i d vpc_id,
    CdkProjectStack env construct_id = Some st
    /\ vpcs st = [v] /\ instances st = [i] /\ databases st = [d]
    /\ try_find_child vpc_id (children st) = Some (CVpc v)
    /\ instance_vpc i = vpc_id
    /\ db_vpc d = vpc_id
    /\ Forall (fun g => sg_vpc (snd g) = vpc_id) (security_groups_of st).
Proof.
  synthesize env construct_id.
  do 4 eexists.
  do 4 read.
  split. { instantiate (1 := "Vpc"). reflexivity. }
  do 2 read.
  run_constructor. repeat constructor.
Qed.

(** X9: the stack has two security groups, both allowing all outbound
    traffic.  The only ingress rule of the whole stack whose source is a
    CIDR range is the one on the compute instance's group, from any IPv4
    address to TCP port 22: the compute group has no other rule, and the
    MySQL port is opened to no address range. *)
Theorem only_ssh_is_open_to_addresses
  (env : Environment) (construct_id : string) :
  exists st i g1 g2 ssh,
    CdkProjectStack env construct_id = Some st
    /\ instances st = [i]
    /\ security_groups_of st
       = [(instance_security_group i, g1); ("RdsSecurityGroup", g2)]
    /\ allow_all_outbound g1 = true /\ allow_all_outbound g2 = true
    /\ ingress_rules g1 = [ssh]
    /\ rule_peer ssh = Peer_any_ipv4 /\ rule_port ssh = Port_tcp 22%Z
    /\ (forall id g r,
           In (id, g) (security_groups_of st) -> In r (ingress_rules g) ->
           is_cidr_peer (rule_peer r) = true ->
           id = instance_security_group i /\ r = ssh).
Proof.
  synthesize env construct_id.
  do 4 eexists.
  do 8 read.
  run_constructor.
  intros id g r [Hg | [Hg | []]] Hr Hc; injection Hg as <- <-;
    destruct Hr as [<- | []].
  - split; reflexivity.
  - discriminate Hc.
Qed.

(** ** Creation order and references *)



